(** * The Sequelize policy adapter (src/adapter.ts) as a shallow embedding

    The adapter stores the rules of a casbin policy model in one table,
    [casbin_rules], through the Sequelize ORM.  Two parts are modelled:

    - the rule codec: [CasbinRule.buildRule] (a rule to a record) and the text
      line [loadPolicy] spells for a record before it hands it to casbin's
      [Helper.loadPolicyLine];
    - the adapter operations [loadPolicy], [savePolicy], [addPolicy],
      [removePolicy] and [removeFilteredPolicy], as state-passing functions
      over the table, with the failures of the ORM calls chosen by a fault
      plan.

    JavaScript's [null] and [undefined] are both [None]; a slot is
    [option string].  [async] functions are computations that either return or
    reject ([Throw]). *)

From Stdlib Require Import Ascii String List Bool Arith Lia ZArith.
Import ListNotations.
Local Open Scope string_scope.
Local Open Scope list_scope.

(** ** JavaScript values *)

(** Truthiness of a value of type [string | null | undefined]: every string but
    the empty one is truthy. *)
Definition truthy (v : option string) : bool :=
  match v with
  | Some s => negb (s =? "")%string
  | None => false
  end.

(** [v || null]. *)
Definition or_null (v : option string) : option string :=
  if truthy v then v else None.

(** How [Array.prototype.join] renders an element: [null] and [undefined] as
    the empty string. *)
Definition js_string (v : option string) : string :=
  match v with
  | Some s => s
  | None => ""
  end.

(** [arr.join(sep)]. *)
Definition join (sep : string) (arr : list (option string)) : string :=
  String.concat sep (map js_string arr).

(** A column value, or a property of a plain object. *)
Inductive Value : Type :=
| VNull
| VNumber (n : nat)
| VString (s : string).

Definition of_slot (v : option string) : Value :=
  match v with
  | Some s => VString s
  | None => VNull
  end.

Definition of_id (v : option nat) : Value :=
  match v with
  | Some n => VNumber n
  | None => VNull
  end.

Definition as_slot (v : option Value) : option string :=
  match v with
  | Some (VString s) => Some s
  | _ => None
  end.

(** A plain object: its own properties in insertion order. *)
Definition PlainObject : Type := list (string * Value).

(** [o[key]]. *)
Fixpoint lookup (key : string) (o : PlainObject) : option Value :=
  match o with
  | [] => None
  | (k, v) :: rest => if (k =? key)%string then Some v else lookup key rest
  end.

(** [delete o[key]]. *)
Definition delete (key : string) (o : PlainObject) : PlainObject :=
  filter (fun kv => negb (fst kv =? key)%string) o.

(** ** The record class *)

(** [class CasbinRule extends Sequelize.Model]: the primary key [id] that
    Sequelize adds, [ptype], and the six slots. *)
Record CasbinRule : Type := mkCasbinRule {
  id : option nat;
  ptype : string;
  v0 : option string;
  v1 : option string;
  v2 : option string;
  v3 : option string;
  v4 : option string;
  v5 : option string
}.

(** [CasbinRule.buildRule]: the array pattern binds [v0] to [v5] to the first
    six elements of [rule] ([undefined] past its end); each slot is [vN || null].
    The new instance has no [id] yet. *)
Definition buildRule (ptype : string) (rule : list string) : CasbinRule :=
  let v0 := nth_error rule 0 in
  let v1 := nth_error rule 1 in
  let v2 := nth_error rule 2 in
  let v3 := nth_error rule 3 in
  let v4 := nth_error rule 4 in
  let v5 := nth_error rule 5 in
  {| id := None;
     ptype := ptype;
     v0 := or_null v0;
     v1 := or_null v1;
     v2 := or_null v2;
     v3 := or_null v3;
     v4 := or_null v4;
     v5 := or_null v5 |}.

(** [[line.v0, line.v1, line.v2, line.v3, line.v4, line.v5]]. *)
Definition slots (line : CasbinRule) : list (option string) :=
  [v0 line; v1 line; v2 line; v3 line; v4 line; v5 line].

(** [line.get({ plain: true })]: the data values of an instance. *)
Definition get_plain (line : CasbinRule) : PlainObject :=
  [("id", of_id (id line));
   ("ptype", VString (ptype line));
   ("v0", of_slot (v0 line));
   ("v1", of_slot (v1 line));
   ("v2", of_slot (v2 line));
   ("v3", of_slot (v3 line));
   ("v4", of_slot (v4 line));
   ("v5", of_slot (v5 line))].

(** ** The text line of a record ([loadPolicy], the body of its loop) *)

(** [[...].filter(n => n)]. *)
Definition loadPolicyLine_fields (line : CasbinRule) : list (option string) :=
  filter truthy (slots line).

(** [result]: [line.ptype + ', ' + [...].filter(n => n).join(', ')]. *)
Definition loadPolicyLine_result (line : CasbinRule) : string :=
  (ptype line ++ ", " ++ join ", " (loadPolicyLine_fields line))%string.

(** The rule that [result] spells: the rule-set name and the joined values. *)
Definition decode (line : CasbinRule) : string * list string :=
  (ptype line, map js_string (loadPolicyLine_fields line)).

(** The values of the slots that are not [null], in slot order. *)
Definition present_values (line : CasbinRule) : list string :=
  flat_map (fun v => match v with Some s => [s] | None => [] end) (slots line).

Definition nonempty (s : string) : bool := negb (s =? "")%string.

(** The text line of a rule, as a policy file writes it. *)
Definition rule_text (ptype : string) (params : list string) : string :=
  (ptype ++ ", " ++ String.concat ", " params)%string.

(** ** The policy model of the engine *)

(** [Assertion]: the adapter reads only its [policy], the rules of one
    rule set. *)
Record Assertion : Type := mkAssertion {
  policy : list (list string)
}.

(** A [Map] with string keys, its entries in iteration order. *)
Definition AstMap : Type := list (string * Assertion).

(** [Model]: [model.model] maps a section ([p], [g]) to the rule sets of the
    section. *)
Record Model : Type := mkModel {
  model : list (string * AstMap)
}.

(** [map.get(key)]. *)
Fixpoint get {V : Type} (key : string) (map : list (string * V)) : option V :=
  match map with
  | [] => None
  | (k, v) :: rest => if (k =? key)%string then Some v else get key rest
  end.

(** ** The backing store *)

(** The table behind the model [casbin_rules]: its rows in insertion order and
    the next value of the auto-increment key. *)
Record Table : Type := mkTable {
  rows : list CasbinRule;
  next_id : nat
}.

(** The database as one connection sees it: the committed table, and the
    working copy of the transaction that is open, if one is. *)
Record Sequelize : Type := mkSequelize {
  casbin_rules : Table;
  pending : option Table
}.

(** What a call may reject with. *)
Inductive Exn : Type :=
| Error (message : string)
| TypeError
| SequelizeError (statement : string).

Inductive Result (A : Type) : Type :=
| Ok (a : A)
| Throw (ex : Exn).

Arguments Ok {A} a.
Arguments Throw {A} ex.

(** An [async] function over the store. *)
Definition Async (A : Type) : Type := Sequelize -> Result A * Sequelize.

Definition ret {A : Type} (a : A) : Async A := fun db => (Ok a, db).

Definition throw {A : Type} (ex : Exn) : Async A := fun db => (Throw ex, db).

Definition bind {A B : Type} (c : Async A) (k : A -> Async B) : Async B :=
  fun db =>
    match c db with
    | (Ok a, db') => k a db'
    | (Throw ex, db') => (Throw ex, db')
    end.

(** [try { body } catch (ex) { handler }]. *)
Definition try_catch {A : Type} (body : Async A) (handler : Exn -> Async A) : Async A :=
  fun db =>
    match body db with
    | (Ok a, db') => (Ok a, db')
    | (Throw ex, db') => handler ex db'
    end.

Notation "x <- c ;; k" := (bind c (fun x => k))
  (at level 61, c at next level, right associativity).
Notation "c ;;; k" := (bind c (fun _ => k))
  (at level 61, right associativity).

(** Which calls of the ORM reject.  [bulkCreate_fails = Some n]: the bulk
    insert rejects after it has written its first [n] records. *)
Record Faults : Type := mkFaults {
  transaction_fails : bool;
  destroy_fails : bool;
  bulkCreate_fails : option nat;
  commit_fails : bool;
  save_fails : bool;
  findAll_fails : bool
}.

Definition no_faults : Faults :=
  {| transaction_fails := false;
     destroy_fails := false;
     bulkCreate_fails := None;
     commit_fails := false;
     save_fails := false;
     findAll_fails := false |}.

(** *** Statements *)

(** The row a plain object becomes on insert, under the key the table gives. *)
Definition row_of_plain (key : nat) (o : PlainObject) : CasbinRule :=
  {| id := Some key;
     ptype := js_string (as_slot (lookup "ptype" o));
     v0 := as_slot (lookup "v0" o);
     v1 := as_slot (lookup "v1" o);
     v2 := as_slot (lookup "v2" o);
     v3 := as_slot (lookup "v3" o);
     v4 := as_slot (lookup "v4" o);
     v5 := as_slot (lookup "v5" o) |}.

(** [INSERT]: one more row, with the next key. *)
Definition insert (o : PlainObject) (t : Table) : Table :=
  {| rows := rows t ++ [row_of_plain (next_id t) o];
     next_id := S (next_id t) |}.

Definition insert_all (os : list PlainObject) (t : Table) : Table :=
  fold_left (fun acc o => insert o acc) os t.

(** A condition of a [where] object on a column: [col IS NULL] for [null],
    [col = value] otherwise. *)
Definition sql_match (column condition : Value) : bool :=
  match condition, column with
  | VNull, VNull => true
  | VNumber n, VNumber m => Nat.eqb m n
  | VString s, VString c => (c =? s)%string
  | _, _ => false
  end.

(** A row satisfies [where]: every property of [where] matches its column. *)
Definition satisfies (where_ : PlainObject) (row : CasbinRule) : bool :=
  forallb (fun kv =>
             match lookup (fst kv) (get_plain row) with
             | Some column => sql_match column (snd kv)
             | None => false
             end) where_.

(** The table a statement with [{ transaction: tx }] works on. *)
Definition in_transaction (statement : string) (f : Table -> Table) : Async unit :=
  fun db =>
    match pending db with
    | Some t => (Ok tt, {| casbin_rules := casbin_rules db; pending := Some (f t) |})
    | None => (Throw (SequelizeError statement), db)
    end.

(** [sequelize.transaction()]: a working copy of the committed table. *)
Definition transaction (f : Faults) : Async unit :=
  fun db =>
    if transaction_fails f then (Throw (SequelizeError "transaction"), db)
    else (Ok tt, {| casbin_rules := casbin_rules db; pending := Some (casbin_rules db) |}).

(** [tx.commit()], not awaited: the caller goes on whether the commit settles
    or rejects.  A commit that rejects leaves the committed table alone. *)
Definition commit (f : Faults) : Async unit :=
  fun db =>
    match pending db with
    | Some t =>
        if commit_fails f then (Ok tt, {| casbin_rules := casbin_rules db; pending := None |})
        else (Ok tt, {| casbin_rules := t; pending := None |})
    | None => (Ok tt, db)
    end.

(** [tx.rollback()], not awaited: the working copy is dropped. *)
Definition rollback : Async unit :=
  fun db => (Ok tt, {| casbin_rules := casbin_rules db; pending := None |}).

(** [CasbinRule.destroy({where: {}, truncate: true, transaction: tx})]: empties
    the working copy of the transaction, so a rollback undoes it (an engine
    whose [TRUNCATE] commits on its own is not a store of this model). *)
Definition destroy_truncate (f : Faults) : Async unit :=
  if destroy_fails f then throw (SequelizeError "destroy")
  else in_transaction "destroy" (fun t => {| rows := []; next_id := next_id t |}).

(** [CasbinRule.bulkCreate(records, { transaction: tx })]. *)
Definition bulkCreate (f : Faults) (records : list PlainObject) : Async unit :=
  match bulkCreate_fails f with
  | Some n =>
      in_transaction "bulkCreate" (insert_all (firstn n records)) ;;;
      throw (SequelizeError "bulkCreate")
  | None => in_transaction "bulkCreate" (insert_all records)
  end.

(** [line.save()] on a new instance: one [INSERT] outside any transaction. *)
Definition save (f : Faults) (line : CasbinRule) : Async unit :=
  fun db =>
    if save_fails f then (Throw (SequelizeError "save"), db)
    else (Ok tt, {| casbin_rules := insert (get_plain line) (casbin_rules db);
                    pending := pending db |}).

(** [CasbinRule.destroy({ where })]: every row that satisfies [where] goes. *)
Definition destroy (f : Faults) (where_ : PlainObject) : Async unit :=
  fun db =>
    if destroy_fails f then (Throw (SequelizeError "destroy"), db)
    else (Ok tt, {| casbin_rules :=
                      {| rows := filter (fun row => negb (satisfies where_ row))
                                        (rows (casbin_rules db));
                         next_id := next_id (casbin_rules db) |};
                    pending := pending db |}).

(** [CasbinRule.findAll()]: the committed rows, here in insertion order (the
    call asks for no order). *)
Definition findAll (f : Faults) : Async (list CasbinRule) :=
  fun db =>
    if findAll_fails f then (Throw (SequelizeError "findAll"), db)
    else (Ok (rows (casbin_rules db)), db).

(** ** The adapter *)

(** The two loops of [savePolicy] over one section: a line per rule of every
    rule set, in order. *)
Definition lines_of (astMap : AstMap) : list CasbinRule :=
  flat_map (fun entry => map (buildRule (fst entry)) (policy (snd entry))) astMap.

(** [for (const [ptype, ast] of model.model.get(sec)!)]: iterating [undefined]
    is a [TypeError]. *)
Definition section_lines (sec : string) (m : Model) : Async (list CasbinRule) :=
  match get sec (model m) with
  | Some astMap => ret (lines_of astMap)
  | None => throw TypeError
  end.

Section LoadPolicy.

(** casbin's [Helper.loadPolicyLine(line, model)], which parses the text
    line and adds the rule to the model. *)
Variable Helper_loadPolicyLine : string -> Model -> Model.

(** [loadPolicy(model)]. *)
Definition loadPolicy (f : Faults) (m : Model) : Async Model :=
  lines <- findAll f ;;
  ret (fold_left (fun acc line => Helper_loadPolicyLine (loadPolicyLine_result line) acc)
                 lines m).

End LoadPolicy.

(** [savePolicy(model)]. *)
Definition savePolicy (f : Faults) (m : Model) : Async bool :=
  transaction f ;;;
  try_catch
    (destroy_truncate f ;;;
     p_lines <- section_lines "p" m ;;
     g_lines <- section_lines "g" m ;;
     bulkCreate f (map get_plain (p_lines ++ g_lines)) ;;;
     commit f)
    (fun ex => rollback ;;; throw ex) ;;;
  ret true.

(** [addPolicy(sec, ptype, rule)]. *)
Definition addPolicy (f : Faults) (sec ptype : string) (rule : list string) : Async unit :=
  let line := buildRule ptype rule in
  save f line.

(** [removePolicy(sec, ptype, rule)]. *)
Definition removePolicy (f : Faults) (sec ptype : string) (rule : list string) : Async unit :=
  let line := buildRule ptype rule in
  let where_ := delete "id" (get_plain line) in
  destroy f where_.

(** [removeFilteredPolicy(sec, ptype, fieldIndex, ...fieldValues)]. *)
Definition removeFilteredPolicy (f : Faults) (sec ptype : string) (fieldIndex : Z)
    (fieldValues : list string) : Async unit :=
  throw (Error "not implemented").

(** The rules of a model that [savePolicy] walks: section [p], then [g]. *)
Definition rules_of (astMap : AstMap) : list (string * list string) :=
  flat_map (fun entry => map (pair (fst entry)) (policy (snd entry))) astMap.

Definition model_rules (m : Model) : list (string * list string) :=
  match get "p" (model m), get "g" (model m) with
  | Some p, Some g => rules_of p ++ rules_of g
  | _, _ => []
  end.

(** The rules the stored records spell, in row order. *)
Definition stored_rules (db : Sequelize) : list (string * list string) :=
  map decode (rows (casbin_rules db)).

(** What a stored rule keeps of a rule of the model: its first six parameters
    without the empty ones. *)
Definition kept (rule : string * list string) : string * list string :=
  (fst rule, filter nonempty (firstn 6 (snd rule))).

Definition same_rule_set (a b : list (string * list string)) : Prop :=
  forall r, In r a <-> In r b.

(** ** Opening and closing an adapter *)

Module Lifecycle.

(** What the calls of an adapter reach: whether the connection still takes
    statements, whether the record class has been bound to it
    ([CasbinRule.init], [initModel]), and the database behind it. *)
Record World : Type := mkWorld {
  connection_open : bool;
  model_defined : bool;
  database : Sequelize
}.

(** The argument of the constructor: connection options, or a [Sequelize]
    instance of the caller. *)
Inductive ConstructorOption : Type :=
| Options
| Instance.

(** The fields of an adapter: whether [this.sequelize] is set, and
    [isOwnSequelizeInstance]. *)
Record SequelizeAdapter : Type := mkAdapter {
  sequelize : bool;
  isOwnSequelizeInstance : bool
}.

(** An adapter on which neither [init] nor the constructor has set
    [this.sequelize]. *)
Definition blank : SequelizeAdapter :=
  {| sequelize := false; isOwnSequelizeInstance := false |}.

(** [init(sequelize)]: keeps the connection and binds the record class. *)
Definition init (a : SequelizeAdapter) (w : World) : SequelizeAdapter * World :=
  ({| sequelize := true; isOwnSequelizeInstance := isOwnSequelizeInstance a |},
   {| connection_open := connection_open w;
      model_defined := true;
      database := database w |}).

(** [constructor(option)]: borrows the caller's instance, or makes a
    connection of its own. *)
Definition constructor (option : ConstructorOption) (w : World) : SequelizeAdapter * World :=
  match option with
  | Instance => ({| sequelize := true; isOwnSequelizeInstance := false |}, w)
  | Options =>
      ({| sequelize := true; isOwnSequelizeInstance := true |},
       {| connection_open := true;
          model_defined := model_defined w;
          database := database w |})
  end.

(** [open()]: [initModel(this.sequelize)]. *)
Definition open (a : SequelizeAdapter) (w : World) : World :=
  {| connection_open := connection_open w;
     model_defined := true;
     database := database w |}.

(** [newAdapter(option)]. *)
Definition newAdapter (option : ConstructorOption) (w : World) : SequelizeAdapter * World :=
  let (a, w') := constructor option w in
  (a, open a w').

(** [close()]: closes the connection only when the adapter made it. *)
Definition close (a : SequelizeAdapter) (w : World) : World :=
  if isOwnSequelizeInstance a then
    {| connection_open := false;
       model_defined := model_defined w;
       database := database w |}
  else w.

(** A connection that is closed rejects every statement. *)
Definition refuse_all : Faults :=
  {| transaction_fails := true;
     destroy_fails := true;
     bulkCreate_fails := Some 0;
     commit_fails := true;
     save_fails := true;
     findAll_fails := true |}.

Definition world_faults (w : World) : Faults :=
  if connection_open w then no_faults else refuse_all.

(** A call on the database of a world. *)
Definition on_database {A : Type} (op : Async A) (w : World) : Result A * World :=
  let (r, db) := op (database w) in
  (r, {| connection_open := connection_open w;
         model_defined := model_defined w;
         database := db |}).

(** A call that begins by using the record class ([new CasbinRule] in
    [buildRule], [CasbinRule.findAll]): while the class is not bound that use
    is a [TypeError], before any statement is sent. *)
Definition run {A : Type} (op : Faults -> Async A) (w : World) : Result A * World :=
  if model_defined w then on_database (op (world_faults w)) w
  else (Throw TypeError, w).

Definition loadPolicy (a : SequelizeAdapter) (helper : string -> Model -> Model)
    (m : Model) : World -> Result Model * World :=
  run (fun f => loadPolicy helper f m).

(** [savePolicy] first calls [this.sequelize.transaction()], a [TypeError] on
    an adapter whose [sequelize] is not set; with the record class not bound,
    [CasbinRule.destroy] is the [TypeError], inside the [try]. *)
Definition savePolicy (a : SequelizeAdapter) (m : Model) : World -> Result bool * World :=
  fun w =>
    if sequelize a then
      if model_defined w then on_database (savePolicy (world_faults w) m) w
      else on_database
             (transaction (world_faults w) ;;;
              try_catch (throw (A := unit) TypeError)
                        (fun ex => rollback ;;; throw ex) ;;;
              ret true) w
    else (Throw TypeError, w).

Definition addPolicy (a : SequelizeAdapter) (sec ptype : string) (rule : list string)
    : World -> Result unit * World :=
  run (fun f => addPolicy f sec ptype rule).

Definition removePolicy (a : SequelizeAdapter) (sec ptype : string) (rule : list string)
    : World -> Result unit * World :=
  run (fun f => removePolicy f sec ptype rule).

(** [removeFilteredPolicy] uses neither the record class nor the connection. *)
Definition removeFilteredPolicy (a : SequelizeAdapter) (sec ptype : string)
    (fieldIndex : Z) (fieldValues : list string) : World -> Result unit * World :=
  fun w => on_database (removeFilteredPolicy (world_faults w) sec ptype fieldIndex fieldValues) w.

(** The lifecycle the specification describes: [Unopened -> Open -> Closed],
    [Closed] final. *)
Inductive Phase : Type :=
| Unopened
| Open
| Closed.

Inductive Call : Type :=
| CallOpen
| CallClose.

Definition phase_step (p : Phase) (c : Call) : Phase :=
  match p, c with
  | Unopened, CallOpen => Open
  | Open, CallClose => Closed
  | _, _ => p
  end.

Definition phase_after (calls : list Call) : Phase :=
  fold_left phase_step calls Unopened.

End Lifecycle.

(** ** The parser of the text lines

    [loadPolicy] hands every line to [Helper.loadPolicyLine] of the casbin
    library, which the adapter imports; its code is not part of this
    repository.  It is modelled here as casbin has it: an empty line or a line
    whose first visible character is [#] is skipped; the line is cut at its
    commas and every piece is trimmed; the first piece is the name of the rule
    set, its first character the section; when the model has that section and
    that rule set, the other pieces are pushed onto its [policy] as one rule. *)

Module Helper.

(** White space of [String.prototype.trim], among the characters of a byte
    string: tab, line feed, vertical tab, form feed, carriage return, space. *)
Definition is_space (c : ascii) : bool :=
  let n := nat_of_ascii c in
  (n =? 32)%nat || ((9 <=? n)%nat && (n <=? 13)%nat).

Fixpoint trimStart (s : string) : string :=
  match s with
  | EmptyString => EmptyString
  | String c rest => if is_space c then trimStart rest else s
  end.

Fixpoint trimEnd (s : string) : string :=
  match s with
  | EmptyString => EmptyString
  | String c rest =>
      match trimEnd rest with
      | EmptyString => if is_space c then EmptyString else String c EmptyString
      | kept_rest => String c kept_rest
      end
  end.

(** [s.trim()]. *)
Definition trim (s : string) : string := trimEnd (trimStart s).

(** [line.split(',')]. *)
Fixpoint split (line : string) : list string :=
  match line with
  | EmptyString => [EmptyString]
  | String c rest =>
      if Ascii.eqb c ","%char then EmptyString :: split rest
      else match split rest with
           | piece :: pieces => String c piece :: pieces
           | [] => [String c EmptyString]
           end
  end.

(** [!line || line.trim().charAt(0) === '#']. *)
Definition skipped (line : string) : bool :=
  match line with
  | EmptyString => true
  | _ => match trim line with
         | String c _ => Ascii.eqb c "#"%char
         | EmptyString => false
         end
  end.

(** [line.split(',').map(n => n.trim())], for a line that is not skipped. *)
Definition tokens (line : string) : option (list string) :=
  if skipped line then None else Some (map trim (split line)).

(** [map.set(key, value)] on a key the map has. *)
Fixpoint set {V : Type} (key : string) (value : V) (map : list (string * V))
    : list (string * V) :=
  match map with
  | [] => []
  | (k, v) :: rest =>
      if (k =? key)%string then (k, value) :: rest else (k, v) :: set key value rest
  end.

(** [policy.policy.push(rule)] on rule set [key] of section [sec]; nothing
    when the model lacks the section or the rule set. *)
Definition push (sec key : string) (rule : list string) (m : Model) : Model :=
  match get sec (model m) with
  | None => m
  | Some item =>
      match get key item with
      | None => m
      | Some ast =>
          {| model := set sec (set key {| policy := policy ast ++ [rule] |} item)
                          (model m) |}
      end
  end.

(** [Helper.loadPolicyLine(line, model)]. *)
Definition loadPolicyLine (line : string) (m : Model) : Model :=
  match tokens line with
  | None => m
  | Some toks =>
      let key := hd EmptyString toks in
      let sec := String.substring 0 1 key in
      push sec key (tl toks) m
  end.

End Helper.











(** ** The revision that saves line by line

    The second revision of the class (the adapter of [newAdapter], [open] and
    [close]) builds a record with [savePolicyLine] and saves a model without a
    transaction: [truncateTable], then a [line.save()] for every rule. *)

Module LineByLine.

(** [savePolicyLine(ptype, rule)]: a new record with [ptype] and, for each [N]
    with [rule.length > N], slot [N] set to [rule[N]].  A slot that is never
    assigned is [None] here; it is missing from the instance, and the insert
    writes it as [NULL]. *)
Definition savePolicyLine (ptype : string) (rule : list string) : CasbinRule :=
  {| id := None;
     ptype := ptype;
     v0 := if (0 <? length rule)%nat then nth_error rule 0 else None;
     v1 := if (1 <? length rule)%nat then nth_error rule 1 else None;
     v2 := if (2 <? length rule)%nat then nth_error rule 2 else None;
     v3 := if (3 <? length rule)%nat then nth_error rule 3 else None;
     v4 := if (4 <? length rule)%nat then nth_error rule 4 else None;
     v5 := if (5 <? length rule)%nat then nth_error rule 5 else None |}.

(** [truncateTable()]: [CasbinRule.destroy({where: {}, truncate: true})], on the
    committed table. *)
Definition truncateTable (f : Faults) : Async unit :=
  fun db =>
    if destroy_fails f then (Throw (SequelizeError "destroy"), db)
    else (Ok tt, {| casbin_rules := {| rows := []; next_id := next_id (casbin_rules db) |};
                    pending := pending db |}).

(** [line.save()], where the store rejects the records [rejects] picks (a value
    the column does not take, a constraint). *)
Definition save (rejects : CasbinRule -> bool) (line : CasbinRule) : Async unit :=
  fun db =>
    if rejects line then (Throw (SequelizeError "save"), db)
    else (Ok tt, {| casbin_rules := insert (get_plain line) (casbin_rules db);
                    pending := pending db |}).

(** [for (const x of items) { await body(x) }]. *)
Fixpoint for_each {A : Type} (items : list A) (body : A -> Async unit) : Async unit :=
  match items with
  | [] => ret tt
  | x :: rest => body x ;;; for_each rest body
  end.

(** One of the two loops of [savePolicy]: [model.model.get(sec)!], then a
    [save] per rule of every rule set. *)
Definition save_section (rejects : CasbinRule -> bool) (sec : string) (m : Model)
    : Async unit :=
  match get sec (model m) with
  | Some astMap =>
      for_each astMap (fun entry =>
        for_each (policy (snd entry)) (fun rule =>
          save rejects (savePolicyLine (fst entry) rule)))
  | None => throw TypeError
  end.

(** [savePolicy(model)]. *)
Definition savePolicy (f : Faults) (rejects : CasbinRule -> bool) (m : Model) : Async bool :=
  truncateTable f ;;;
  save_section rejects "p" m ;;;
  save_section rejects "g" m ;;;
  ret true.

(** [addPolicy(sec, ptype, rule)]. *)
Definition addPolicy (rejects : CasbinRule -> bool) (sec ptype : string)
    (rule : list string) : Async unit :=
  let line := savePolicyLine ptype rule in
  save rejects line.

(** [loadPolicyLine(line, model)]. *)
Definition loadPolicyLine (helper : string -> Model -> Model) (line : CasbinRule)
    (m : Model) : Model :=
  helper (loadPolicyLine_result line) m.

(** [loadPolicy(model)]. *)
Definition loadPolicy (helper : string -> Model -> Model) (f : Faults) (m : Model)
    : Async Model :=
  lines <- findAll f ;;
  ret (fold_left (fun acc line => loadPolicyLine helper line acc) lines m).

(** The records [savePolicy] saves for one section, in the order of its loops. *)
Definition lines_of (astMap : AstMap) : list CasbinRule :=
  flat_map (fun entry => map (savePolicyLine (fst entry)) (policy (snd entry))) astMap.

End LineByLine.

(** ** What the statements below are about *)

(** The record [line] as the row stored under key [k]. *)
Definition with_id (k : nat) (line : CasbinRule) : CasbinRule :=
  {| id := Some k;
     ptype := ptype line;
     v0 := v0 line;
     v1 := v1 line;
     v2 := v2 line;
     v3 := v3 line;
     v4 := v4 line;
     v5 := v5 line |}.

(** The rows a list of lines becomes, keys counted from [k]. *)
Fixpoint stored_as (k : nat) (lines : list CasbinRule) : list CasbinRule :=
  match lines with
  | [] => []
  | line :: rest => with_id k line :: stored_as (S k) rest
  end.

(** A row holds the encoding of a rule: the rule-set name and all six slots
    are those of the built record (the [id] plays no part). *)
Definition encodes (pt : string) (rule : list string) (row : CasbinRule) : Prop :=
  ptype row = pt /\ slots row = slots (buildRule pt rule).

(** The [where] object of [removePolicy]. *)
Definition removePolicy_where (pt : string) (rule : list string) : PlainObject :=
  delete "id" (get_plain (buildRule pt rule)).

(** The table without the transaction that was open on it. *)
Definition settled (db : Sequelize) : Sequelize :=
  {| casbin_rules := casbin_rules db; pending := None |}.

(** The table [savePolicy] commits: the lines of the model, keyed from the
    next free key. *)
Definition replaced (db : Sequelize) (lines : list CasbinRule) : Sequelize :=
  {| casbin_rules :=
       {| rows := stored_as (next_id (casbin_rules db)) lines;
          next_id := next_id (casbin_rules db) + length lines |};
     pending := None |}.

(** The table after rows for [lines] were added to it. *)
Definition grown (db : Sequelize) (lines : list CasbinRule) : Sequelize :=
  {| casbin_rules :=
       {| rows := rows (casbin_rules db) ++ stored_as (next_id (casbin_rules db)) lines;
          next_id := next_id (casbin_rules db) + length lines |};
     pending := pending db |}.

(** The table emptied, then filled with rows for [lines]. *)
Definition refilled (db : Sequelize) (lines : list CasbinRule) : Sequelize :=
  {| casbin_rules :=
       {| rows := stored_as (next_id (casbin_rules db)) lines;
          next_id := next_id (casbin_rules db) + length lines |};
     pending := pending db |}.

(** A rule that goes through the codec unchanged: at most six parameters, none
    of them empty. *)
Definition plain_rule (rule : list string) : Prop :=
  length rule <= 6 /\ forallb nonempty rule = true.

(** ** Inputs the examples below run on *)

Definition empty_db : Sequelize :=
  {| casbin_rules := {| rows := []; next_id := 1 |}; pending := None |}.

(** A model with one rule set [p] and no grouping rules. *)
Definition model_of (rules : list (list string)) : Model :=
  {| model := [("p", [("p", {| policy := rules |})]); ("g", [])] |}.

(** The stored row of [alice, data1, read] under key [k]. *)
Definition alice_row (k : nat) : CasbinRule :=
  {| id := Some k; ptype := "p";
     v0 := Some "alice"; v1 := Some "data1"; v2 := Some "read";
     v3 := None; v4 := None; v5 := None |}.

(** * The codec *)

Lemma nonempty_true (s : string) : nonempty s = true <-> s <> "".
Proof.
  unfold nonempty. rewrite negb_true_iff. split.
  - intros H E. subst s. discriminate H.
  - intros H. apply String.eqb_neq. exact H.
Qed.

Lemma or_null_Some (s : string) :
  or_null (Some s) = if nonempty s then Some s else None.
Proof. reflexivity. Qed.

(** A slot of a built record is never the empty string. *)
Lemma or_null_not_empty (v : option string) : or_null v <> Some "".
Proof.
  unfold or_null. destruct v as [s|]; simpl; [|discriminate].
  destruct (s =? "")%string eqn:E; simpl; [discriminate|].
  intros H. injection H as ->. discriminate E.
Qed.

(** Slot [n] of a built record: parameter [n] unless it is empty. *)
Lemma buildRule_slot (ptype : string) (rule : list string) (n : nat) :
  n < 6 ->
  nth n (slots (buildRule ptype rule)) None = or_null (nth_error rule n).
Proof.
  intros H.
  do 6 (destruct n as [|n]; [reflexivity|]).
  lia.
Qed.




Lemma filter_all (A : Type) (p : A -> bool) (l : list A) :
  forallb p l = true -> filter p l = l.
Proof.
  induction l as [|x l IH]; simpl; [reflexivity|].
  intros H. apply andb_true_iff in H as [Hx Hl].
  rewrite Hx, (IH Hl). reflexivity.
Qed.

Lemma firstn_short (A : Type) (l : list A) (k : nat) :
  length l <= k -> firstn k l = l.
Proof.
  revert l. induction k as [|k IH]; intros [|x l] H; simpl in *; try reflexivity; try lia.
  rewrite IH by lia. reflexivity.
Qed.

(** What a record yields when it is read back: its present, non-empty slots. *)
Lemma decode_present (line : CasbinRule) :
  decode line = (ptype line, filter nonempty (present_values line)).
Proof.
  unfold decode, loadPolicyLine_fields, present_values, slots.
  destruct line as [i p a b c d e g]; simpl.
  f_equal.
  destruct a as [a|], b as [b|], c as [c|], d as [d|], e as [e|], g as [g|];
    simpl; unfold nonempty;
    repeat match goal with
           | |- context [(?s =? "")%string] => destruct (s =? "")%string; simpl
           end;
    reflexivity.
Qed.

(** Reading back a built record: the first six parameters, the empty ones
    left out. *)
Lemma decode_buildRule (ptype : string) (rule : list string) :
  decode (buildRule ptype rule) = kept (ptype, rule).
Proof.
  rewrite decode_present. unfold kept. simpl. f_equal.
  unfold present_values, slots, buildRule; simpl.
  destruct rule as [|a [|b [|c [|d [|e [|g rest]]]]]]; simpl;
    unfold or_null, nonempty;
    repeat (simpl;
            match goal with
            | H : (?s =? "")%string = _ |- context [(?s =? "")%string] => rewrite H
            | |- context [(?s =? "")%string] => destruct (s =? "")%string eqn:?
            end);
    reflexivity.
Qed.

(** The text line is the rule that [decode] names, written out. *)
Lemma loadPolicyLine_result_decode (line : CasbinRule) :
  loadPolicyLine_result line = rule_text (fst (decode line)) (snd (decode line)).
Proof. reflexivity. Qed.

Lemma kept_exact (ptype : string) (rule : list string) :
  length rule <= 6 -> forallb nonempty rule = true ->
  kept (ptype, rule) = (ptype, rule).
Proof.
  intros Hlen Hne. unfold kept. cbn [fst snd].
  rewrite firstn_short by exact Hlen.
  rewrite filter_all by exact Hne. reflexivity.
Qed.






(** * Statements on the table *)

Lemma row_of_plain_get_plain (k : nat) (line : CasbinRule) :
  row_of_plain k (get_plain line) = with_id k line.
Proof.
  destruct line as [i p a b c d e g].
  destruct a, b, c, d, e, g; reflexivity.
Qed.

Lemma insert_all_rows (lines : list CasbinRule) (t : Table) :
  insert_all (map get_plain lines) t
  = {| rows := rows t ++ stored_as (next_id t) lines;
       next_id := next_id t + length lines |}.
Proof.
  revert t. induction lines as [|line lines IH]; intros t; simpl.
  - rewrite app_nil_r, Nat.add_0_r. destruct t; reflexivity.
  - unfold insert_all in *. simpl. rewrite IH. simpl.
    rewrite row_of_plain_get_plain, <- app_assoc. simpl.
    f_equal. lia.
Qed.

Lemma map_decode_stored_as (lines : list CasbinRule) (k : nat) :
  map decode (stored_as k lines) = map decode lines.
Proof.
  revert k. induction lines as [|line lines IH]; intros k; simpl; [reflexivity|].
  rewrite IH. reflexivity.
Qed.


Lemma sql_match_of_slot (a b : option string) :
  sql_match (of_slot a) (of_slot b) = true <-> a = b.
Proof.
  destruct a as [a|], b as [b|]; simpl; split; intros H;
    try discriminate; try reflexivity.
  - apply String.eqb_eq in H. subst. reflexivity.
  - injection H as ->. apply String.eqb_refl.
Qed.


(** A row satisfies the [where] object of [removePolicy] exactly when it holds
    the encoding of the rule. *)
Lemma satisfies_removePolicy_where (pt : string) (rule : list string) (row : CasbinRule) :
  satisfies (removePolicy_where pt rule) row = true <-> encodes pt rule row.
Proof.
  unfold encodes, removePolicy_where, satisfies, delete, slots.
  destruct row as [i p a b c d e g].
  cbn -[sql_match of_slot or_null nth_error].
  rewrite !andb_true_iff, !sql_match_of_slot.
  cbn [sql_match]. rewrite String.eqb_eq.
  split.
  - intros (Hp & H0 & H1 & H2 & H3 & H4 & H5 & _).
    split; [exact Hp|]. congruence.
  - intros (Hp & Hs). injection Hs as H0 H1 H2 H3 H4 H5.
    repeat split; assumption.
Qed.

Lemma filter_none (A : Type) (p : A -> bool) (l : list A) :
  (forall x, In x l -> p x = true) -> filter p l = l.
Proof.
  intros H. apply filter_all. apply forallb_forall. exact H.
Qed.


Lemma removePolicy_rows (f : Faults) (sec pt : string) (rule : list string) (db : Sequelize) :
  destroy_fails f = false ->
  removePolicy f sec pt rule db
  = (Ok tt,
     {| casbin_rules :=
          {| rows := filter (fun row => negb (satisfies (removePolicy_where pt rule) row))
                            (rows (casbin_rules db));
             next_id := next_id (casbin_rules db) |};
        pending := pending db |}).
Proof.
  intros Hf. unfold removePolicy, destroy. rewrite Hf. reflexivity.
Qed.



(** C6, as the code has it: slot [N] of a built record is present exactly when
    the rule has a parameter [N] and that parameter is not the empty string; no
    slot of a built record holds the empty string; and an empty-string
    parameter at [N] makes [removePolicy] look for rows whose slot [N] is
    absent. *)
Theorem buildRule_slot_present (pt : string) (rule : list string) (n : nat) :
  n < 6 ->
  (nth n (slots (buildRule pt rule)) None <> None <->
   exists s, nth_error rule n = Some s /\ s <> "") /\
  nth n (slots (buildRule pt rule)) None <> Some "" /\
  (nth_error rule n = Some "" ->
   forall row, satisfies (removePolicy_where pt rule) row = true ->
               nth n (slots row) None = None).
Proof.
  intros Hn.
  rewrite buildRule_slot by exact Hn.
  split; [|split].
  - destruct (nth_error rule n) as [s|]; simpl.
    + rewrite or_null_Some. destruct (nonempty s) eqn:E.
      * split; [|discriminate]. intros _. exists s. split; [reflexivity|].
        apply nonempty_true. exact E.
      * split; [intros H; exfalso; apply H; reflexivity|].
        intros (s' & Hs & Hne). injection Hs as <-.
        apply nonempty_true in Hne. congruence.
    + split; [intros H; exfalso; apply H; reflexivity|].
      intros (s' & Hs & _). discriminate Hs.
  - apply or_null_not_empty.
  - intros Hempty row Hsat.
    apply satisfies_removePolicy_where in Hsat as [_ Hs].
    rewrite Hs, buildRule_slot by exact Hn.
    rewrite Hempty. reflexivity.
Qed.

Lemma buildRule_slot_present_witness :
  (nth 1 (slots (buildRule "p" ["alice"; ""; "read"])) None <> None <->
   exists s, nth_error ["alice"; ""; "read"] 1 = Some s /\ s <> "") /\
  nth 1 (slots (buildRule "p" ["alice"; ""; "read"])) None <> Some "" /\
  (nth_error ["alice"; ""; "read"] 1 = Some "" ->
   forall row, satisfies (removePolicy_where "p" ["alice"; ""; "read"]) row = true ->
               nth 1 (slots row) None = None).
Proof.
  apply (buildRule_slot_present "p" ["alice"; ""; "read"]).
  lia.
Defined.

(** C6 as stated fails twice: the record of [alice, ""] has no [v1] although the
    rule has a parameter 1, and [removePolicy] with that rule removes the row of
    [alice], whose [v1] is absent. *)
Lemma empty_parameter_is_absent_slot :
  1 < length ["alice"; ""] /\
  v1 (buildRule "p" ["alice"; ""]) = None /\
  fst (addPolicy no_faults "" "p" ["alice"] empty_db) = Ok tt /\
  rows (casbin_rules (snd (addPolicy no_faults "" "p" ["alice"] empty_db)))
  = [ {| id := Some 1; ptype := "p"; v0 := Some "alice"; v1 := None;
         v2 := None; v3 := None; v4 := None; v5 := None |} ] /\
  rows (casbin_rules
          (snd (removePolicy no_faults "" "p" ["alice"; ""]
                  (snd (addPolicy no_faults "" "p" ["alice"] empty_db))))) = [].
Proof.
  split; [simpl; lia|].
  repeat split.
Qed.

(** C7: [removeFilteredPolicy] rejects with the error "not implemented" on every
    input and in every store, touches nothing, and so never reports success. *)
Theorem removeFilteredPolicy_not_implemented
    (f : Faults) (sec pt : string) (fieldIndex : Z) (fieldValues : list string)
    (db : Sequelize) :
  removeFilteredPolicy f sec pt fieldIndex fieldValues db
  = (Throw (Error "not implemented"), db) /\
  fst (removeFilteredPolicy f sec pt fieldIndex fieldValues db) <> Ok tt.
Proof.
  split; [reflexivity|].
  simpl. discriminate.
Qed.

(** C10: [addPolicy] and [removePolicy] do not look at [sec]: two calls that
    differ only in it return the same result and leave the same store. *)
Theorem sec_is_ignored
    (f : Faults) (sec1 sec2 pt : string) (rule : list string) (db : Sequelize) :
  addPolicy f sec1 pt rule db = addPolicy f sec2 pt rule db /\
  removePolicy f sec1 pt rule db = removePolicy f sec2 pt rule db.
Proof.
  split; reflexivity.
Qed.

(** * [savePolicy] *)

(** Every path of [savePolicy], by the call that rejects. *)
Lemma savePolicy_paths (f : Faults) (m : Model) (db : Sequelize) :
  savePolicy f m db =
  if transaction_fails f then (Throw (SequelizeError "transaction"), db)
  else if destroy_fails f then (Throw (SequelizeError "destroy"), settled db)
  else match get "p" (model m), get "g" (model m) with
       | Some p, Some g =>
           match bulkCreate_fails f with
           | Some _ => (Throw (SequelizeError "bulkCreate"), settled db)
           | None =>
               if commit_fails f then (Ok true, settled db)
               else (Ok true, replaced db (lines_of p ++ lines_of g))
           end
       | _, _ => (Throw TypeError, settled db)
       end.
Proof.
  unfold savePolicy, bind, try_catch, transaction.
  destruct (transaction_fails f); [reflexivity|].
  unfold destroy_truncate.
  destruct (destroy_fails f); [reflexivity|].
  unfold section_lines, in_transaction, bind. cbn [pending casbin_rules].
  destruct (get "p" (model m)) as [p|]; [|reflexivity].
  cbn [ret].
  destruct (get "g" (model m)) as [g|]; [|reflexivity].
  cbn [ret]. unfold bulkCreate, bind, in_transaction.
  destruct (bulkCreate_fails f) as [n|]; [reflexivity|].
  cbn [pending casbin_rules]. unfold commit. cbn [pending casbin_rules].
  destruct (commit_fails f); [reflexivity|].
  rewrite insert_all_rows. reflexivity.
Qed.

Lemma settled_idle (db : Sequelize) : pending db = None -> settled db = db.
Proof.
  destruct db as [t pend]. simpl. intros ->. reflexivity.
Qed.

Lemma lines_of_rules (astMap : AstMap) :
  lines_of astMap = map (fun r => buildRule (fst r) (snd r)) (rules_of astMap).
Proof.
  unfold lines_of, rules_of.
  induction astMap as [|[pt ast] rest IH]; simpl; [reflexivity|].
  rewrite IH, map_app, map_map. reflexivity.
Qed.

(** The paths of [savePolicy] up to the commit, on an idle connection.  When the
    transaction cannot start, the delete-all or the bulk insert rejects (the
    insert after any number of records), or the model lacks a section, the call
    rejects and the store, rolled back, is what it was.  When nothing rejects,
    the call returns [true], no transaction stays open, and the table holds the
    records of the model's rules and nothing else.  On every path the store is
    either untouched or fully replaced. *)
Theorem savePolicy_atomic (f : Faults) (m : Model) (db : Sequelize) :
  pending db = None ->
  ((transaction_fails f = true \/ destroy_fails f = true \/ bulkCreate_fails f <> None \/
    get "p" (model m) = None \/ get "g" (model m) = None) ->
   (exists ex, fst (savePolicy f m db) = Throw ex) /\ snd (savePolicy f m db) = db) /\
  (transaction_fails f = false -> destroy_fails f = false ->
   bulkCreate_fails f = None -> commit_fails f = false ->
   forall p g, get "p" (model m) = Some p -> get "g" (model m) = Some g ->
     fst (savePolicy f m db) = Ok true /\
     rows (casbin_rules (snd (savePolicy f m db)))
     = stored_as (next_id (casbin_rules db)) (lines_of p ++ lines_of g) /\
     pending (snd (savePolicy f m db)) = None) /\
  (snd (savePolicy f m db) = db \/
   exists p g, get "p" (model m) = Some p /\ get "g" (model m) = Some g /\
     fst (savePolicy f m db) = Ok true /\
     snd (savePolicy f m db) = replaced db (lines_of p ++ lines_of g)).
Proof.
  intros Hidle.
  rewrite savePolicy_paths.
  pose proof (settled_idle db Hidle) as Hs.
  split; [|split].
  - intros Hfault.
    destruct (transaction_fails f); [split; [eexists; reflexivity | reflexivity]|].
    destruct (destroy_fails f); [split; [eexists; reflexivity | exact Hs]|].
    destruct (get "p" (model m)) as [p|]; [|split; [eexists; reflexivity | exact Hs]].
    destruct (get "g" (model m)) as [g|]; [|split; [eexists; reflexivity | exact Hs]].
    destruct (bulkCreate_fails f) as [n|]; [split; [eexists; reflexivity | exact Hs]|].
    exfalso. destruct Hfault as [H|[H|[H|[H|H]]]]; try discriminate H.
    apply H. reflexivity.
  - intros Ht Hd Hb Hc p g Hp Hg.
    rewrite Ht, Hd, Hp, Hg, Hb, Hc. repeat split.
  - destruct (transaction_fails f); [left; reflexivity|].
    destruct (destroy_fails f); [left; exact Hs|].
    destruct (get "p" (model m)) as [p|]; [|left; exact Hs].
    destruct (get "g" (model m)) as [g|]; [|left; exact Hs].
    destruct (bulkCreate_fails f) as [n|]; [left; exact Hs|].
    destruct (commit_fails f); [left; exact Hs|].
    right. exists p, g. repeat split.
Qed.

(** An insert that rejects after the delete-all and one written record. *)
Lemma savePolicy_atomic_witness :
  let f := {| transaction_fails := false; destroy_fails := false;
              bulkCreate_fails := Some 1; commit_fails := false;
              save_fails := false; findAll_fails := false |} in
  let m := model_of [["bob"; "data2"; "write"]; ["carol"; "data3"; "read"]] in
  let db := {| casbin_rules := {| rows := [alice_row 1]; next_id := 2 |};
               pending := None |} in
  ((transaction_fails f = true \/ destroy_fails f = true \/ bulkCreate_fails f <> None \/
    get "p" (model m) = None \/ get "g" (model m) = None) ->
   (exists ex, fst (savePolicy f m db) = Throw ex) /\ snd (savePolicy f m db) = db) /\
  (transaction_fails f = false -> destroy_fails f = false ->
   bulkCreate_fails f = None -> commit_fails f = false ->
   forall p g, get "p" (model m) = Some p -> get "g" (model m) = Some g ->
     fst (savePolicy f m db) = Ok true /\
     rows (casbin_rules (snd (savePolicy f m db)))
     = stored_as (next_id (casbin_rules db)) (lines_of p ++ lines_of g) /\
     pending (snd (savePolicy f m db)) = None) /\
  (snd (savePolicy f m db) = db \/
   exists p g, get "p" (model m) = Some p /\ get "g" (model m) = Some g /\
     fst (savePolicy f m db) = Ok true /\
     snd (savePolicy f m db) = replaced db (lines_of p ++ lines_of g)).
Proof.
  intros f m db.
  apply (savePolicy_atomic f m db).
  reflexivity.
Defined.

(** A fault in the bulk insert after the delete-all: the call rejects and the
    row that was stored is still there. *)
Example savePolicy_insert_fault :
  savePolicy {| transaction_fails := false; destroy_fails := false;
                bulkCreate_fails := Some 1; commit_fails := false;
                save_fails := false; findAll_fails := false |}
             (model_of [["bob"; "data2"; "write"]; ["carol"; "data3"; "read"]])
             {| casbin_rules := {| rows := [alice_row 1]; next_id := 2 |};
                pending := None |}
  = (Throw (SequelizeError "bulkCreate"),
     {| casbin_rules := {| rows := [alice_row 1]; next_id := 2 |}; pending := None |}).
Proof. reflexivity. Qed.

(** * [savePolicy], then [loadPolicy] *)


Lemma decode_lines_of (rules : list (string * list string)) :
  map decode (map (fun r => buildRule (fst r) (snd r)) rules) = map kept rules.
Proof.
  rewrite map_map. apply map_ext. intros [pt rule]. apply decode_buildRule.
Qed.


Lemma map_kept_exact (rules : list (string * list string)) :
  (forall r, In r rules -> length (snd r) <= 6 /\ forallb nonempty (snd r) = true) ->
  map kept rules = rules.
Proof.
  induction rules as [|[pt rule] rest IH]; intros H; simpl; [reflexivity|].
  destruct (H (pt, rule) (or_introl eq_refl)) as [Hlen Hne].
  rewrite kept_exact by assumption.
  rewrite IH; [reflexivity|].
  intros r Hr. apply H. right. exact Hr.
Qed.

(** * Opening and closing *)

Lemma run_world_eta (w : Lifecycle.World) :
  {| Lifecycle.connection_open := Lifecycle.connection_open w;
     Lifecycle.model_defined := Lifecycle.model_defined w;
     Lifecycle.database := Lifecycle.database w |} = w.
Proof. destruct w; reflexivity. Qed.

(** C8, as the code has it: no call of the adapter looks at a lifecycle state.
    [close] on a connection of the caller changes nothing, so every call after
    it does what it did before; [close] on a connection the adapter made shuts
    it, and with the record class bound the calls then reject with the error of
    the store.  While the record class is not bound, [addPolicy],
    [removePolicy] and [loadPolicy] are a [TypeError] and send no statement,
    and [savePolicy] rejects too.  On a connection that is open and has the
    record class bound, [addPolicy], [removePolicy] and [loadPolicy] return
    without error for every adapter, opened or not.  [removeFilteredPolicy]
    rejects with "not implemented" wherever it is called, and [savePolicy] on an
    adapter whose [sequelize] was never set is a [TypeError]. *)
Theorem calls_follow_the_connection (a : Lifecycle.SequelizeAdapter) (w : Lifecycle.World) :
  (Lifecycle.isOwnSequelizeInstance a = false -> Lifecycle.close a w = w) /\
  (Lifecycle.isOwnSequelizeInstance a = true -> Lifecycle.model_defined w = true ->
   Lifecycle.connection_open (Lifecycle.close a w) = false /\
   Lifecycle.database (Lifecycle.close a w) = Lifecycle.database w /\
   (forall sec pt rule,
       fst (Lifecycle.addPolicy a sec pt rule (Lifecycle.close a w))
       = Throw (SequelizeError "save")) /\
   (forall sec pt rule,
       fst (Lifecycle.removePolicy a sec pt rule (Lifecycle.close a w))
       = Throw (SequelizeError "destroy")) /\
   (forall helper m,
       fst (Lifecycle.loadPolicy a helper m (Lifecycle.close a w))
       = Throw (SequelizeError "findAll")) /\
   (forall m, exists ex,
       fst (Lifecycle.savePolicy a m (Lifecycle.close a w)) = Throw ex)) /\
  (Lifecycle.model_defined w = false ->
   (forall sec pt rule, Lifecycle.addPolicy a sec pt rule w = (Throw TypeError, w)) /\
   (forall sec pt rule, Lifecycle.removePolicy a sec pt rule w = (Throw TypeError, w)) /\
   (forall helper m, Lifecycle.loadPolicy a helper m w = (Throw TypeError, w)) /\
   (forall m, exists ex, fst (Lifecycle.savePolicy a m w) = Throw ex)) /\
  (forall sec pt fieldIndex fieldValues,
      Lifecycle.removeFilteredPolicy a sec pt fieldIndex fieldValues w
      = (Throw (Error "not implemented"), w)) /\
  (Lifecycle.connection_open w = true -> Lifecycle.model_defined w = true ->
   (forall sec pt rule, fst (Lifecycle.addPolicy a sec pt rule w) = Ok tt) /\
   (forall sec pt rule, fst (Lifecycle.removePolicy a sec pt rule w) = Ok tt) /\
   (forall helper m, exists m', fst (Lifecycle.loadPolicy a helper m w) = Ok m')) /\
  (Lifecycle.sequelize a = false ->
   forall m, Lifecycle.savePolicy a m w = (Throw TypeError, w)).
Proof.
  split; [|split; [|split; [|split; [|split]]]].
  - intros Hown. unfold Lifecycle.close. rewrite Hown. reflexivity.
  - intros Hown Hdef. unfold Lifecycle.close. rewrite Hown.
    unfold Lifecycle.addPolicy, Lifecycle.removePolicy, Lifecycle.loadPolicy,
      Lifecycle.savePolicy, Lifecycle.run.
    cbn [Lifecycle.model_defined Lifecycle.connection_open Lifecycle.database].
    rewrite Hdef.
    split; [reflexivity|]. split; [reflexivity|].
    split; [reflexivity|]. split; [reflexivity|]. split; [reflexivity|].
    intros m. destruct (Lifecycle.sequelize a); eexists; reflexivity.
  - intros Hdef.
    unfold Lifecycle.addPolicy, Lifecycle.removePolicy, Lifecycle.loadPolicy,
      Lifecycle.savePolicy, Lifecycle.run.
    rewrite Hdef.
    split; [reflexivity|]. split; [reflexivity|]. split; [reflexivity|].
    intros m. destruct (Lifecycle.sequelize a); [|eexists; reflexivity].
    unfold Lifecycle.on_database, Lifecycle.world_faults, bind, try_catch, transaction.
    destruct (Lifecycle.connection_open w); eexists; reflexivity.
  - intros sec pt fieldIndex fieldValues.
    unfold Lifecycle.removeFilteredPolicy, Lifecycle.on_database. simpl.
    rewrite run_world_eta. reflexivity.
  - intros Hopen Hdef.
    unfold Lifecycle.addPolicy, Lifecycle.removePolicy, Lifecycle.loadPolicy,
      Lifecycle.run, Lifecycle.world_faults.
    rewrite Hopen, Hdef.
    split; [reflexivity|]. split; [reflexivity|].
    intros helper m. eexists. reflexivity.
  - intros Hset m. unfold Lifecycle.savePolicy. rewrite Hset. reflexivity.
Qed.

(** C8 as stated fails: an adapter made over a connection of the caller, opened
    and then closed, is [Closed] in the lifecycle of the specification, and its
    [addPolicy] still returns and writes the row; so does [addPolicy] on an
    adapter that was never opened, once [init] on another adapter has bound the
    record class. *)
Lemma addPolicy_after_close :
  Lifecycle.phase_after [Lifecycle.CallOpen; Lifecycle.CallClose] = Lifecycle.Closed /\
  (let w0 := {| Lifecycle.connection_open := true;
                Lifecycle.model_defined := false;
                Lifecycle.database := empty_db |} in
   let a := fst (Lifecycle.newAdapter Lifecycle.Instance w0) in
   let w := Lifecycle.close a (snd (Lifecycle.newAdapter Lifecycle.Instance w0)) in
   Lifecycle.addPolicy a "" "p" ["role"; "res"; "action"] w
   = (Ok tt,
      {| Lifecycle.connection_open := true;
         Lifecycle.model_defined := true;
         Lifecycle.database :=
           {| casbin_rules :=
                {| rows := [ {| id := Some 1; ptype := "p";
                                v0 := Some "role"; v1 := Some "res"; v2 := Some "action";
                                v3 := None; v4 := None; v5 := None |} ];
                   next_id := 2 |};
              pending := None |} |})) /\
  Lifecycle.phase_after [] = Lifecycle.Unopened /\
  fst (Lifecycle.addPolicy Lifecycle.blank "" "p" ["role"; "res"; "action"]
         (snd (Lifecycle.init Lifecycle.blank
                 {| Lifecycle.connection_open := true;
                    Lifecycle.model_defined := false;
                    Lifecycle.database := empty_db |}))) = Ok tt.
Proof.
  repeat split.
Qed.

(** * Further properties of the operations *)

(** Both stored copies of a rule go at once; the other row stays. *)
Example removePolicy_removes_duplicates :
  removePolicy no_faults "" "p" ["alice"; "data1"; "read"]
    {| casbin_rules :=
         {| rows := [alice_row 1;
                     {| id := Some 2; ptype := "p";
                        v0 := Some "alice"; v1 := Some "data1"; v2 := Some "read";
                        v3 := Some "allow"; v4 := None; v5 := None |};
                     alice_row 3];
            next_id := 4 |};
       pending := None |}
  = (Ok tt,
     {| casbin_rules :=
          {| rows := [ {| id := Some 2; ptype := "p";
                          v0 := Some "alice"; v1 := Some "data1"; v2 := Some "read";
                          v3 := Some "allow"; v4 := None; v5 := None |} ];
             next_id := 4 |};
        pending := None |}).
Proof. reflexivity. Qed.

Lemma filter_twice (A : Type) (p : A -> bool) (l : list A) :
  filter p (filter p l) = filter p l.
Proof.
  induction l as [|x l IH]; simpl; [reflexivity|].
  destruct (p x) eqn:E; simpl; [rewrite E, IH|]; auto.
Qed.

Lemma encodes_built (k : nat) (pt : string) (rule : list string) :
  encodes pt rule (with_id k (buildRule pt rule)).
Proof. split; reflexivity. Qed.

(** Add, then remove: when no stored row held the rule before, [addPolicy]
    followed by [removePolicy] with the same arguments leaves the rows that
    were there. *)
Theorem addPolicy_then_removePolicy
    (f : Faults) (sec pt : string) (rule : list string) (db : Sequelize) :
  save_fails f = false ->
  destroy_fails f = false ->
  (forall row, In row (rows (casbin_rules db)) -> ~ encodes pt rule row) ->
  fst (addPolicy f sec pt rule db) = Ok tt /\
  fst (removePolicy f sec pt rule (snd (addPolicy f sec pt rule db))) = Ok tt /\
  rows (casbin_rules (snd (removePolicy f sec pt rule (snd (addPolicy f sec pt rule db)))))
  = rows (casbin_rules db).
Proof.
  intros Hs Hd Hnone.
  rewrite removePolicy_rows by exact Hd.
  unfold addPolicy, save. rewrite Hs. cbn [fst snd casbin_rules rows insert].
  split; [reflexivity|]. split; [reflexivity|].
  rewrite filter_app, row_of_plain_get_plain. cbn [filter].
  assert (E : satisfies (removePolicy_where pt rule)
                (with_id (next_id (casbin_rules db)) (buildRule pt rule)) = true).
  { apply satisfies_removePolicy_where. apply encodes_built. }
  rewrite E. cbn [negb]. rewrite app_nil_r.
  apply filter_none. intros row Hin.
  apply negb_true_iff.
  destruct (satisfies (removePolicy_where pt rule) row) eqn:S; [|reflexivity].
  exfalso. apply (Hnone row Hin). apply satisfies_removePolicy_where. exact S.
Qed.

Lemma addPolicy_then_removePolicy_witness :
  fst (addPolicy no_faults "" "p" ["role"; "res"; "action"]
         {| casbin_rules := {| rows := [alice_row 1]; next_id := 2 |}; pending := None |})
  = Ok tt /\
  fst (removePolicy no_faults "" "p" ["role"; "res"; "action"]
         (snd (addPolicy no_faults "" "p" ["role"; "res"; "action"]
                 {| casbin_rules := {| rows := [alice_row 1]; next_id := 2 |};
                    pending := None |})))
  = Ok tt /\
  rows (casbin_rules
          (snd (removePolicy no_faults "" "p" ["role"; "res"; "action"]
                  (snd (addPolicy no_faults "" "p" ["role"; "res"; "action"]
                          {| casbin_rules := {| rows := [alice_row 1]; next_id := 2 |};
                             pending := None |})))))
  = [alice_row 1].
Proof.
  apply (addPolicy_then_removePolicy no_faults "" "p" ["role"; "res"; "action"]
           {| casbin_rules := {| rows := [alice_row 1]; next_id := 2 |};
              pending := None |}).
  - reflexivity.
  - reflexivity.
  - intros row [<-|[]] [_ E]. discriminate E.
Defined.

(** Removing twice: the second [removePolicy] with the same arguments returns
    without error and finds nothing left to remove. *)
Theorem removePolicy_twice
    (f : Faults) (sec pt : string) (rule : list string) (db : Sequelize) :
  destroy_fails f = false ->
  fst (removePolicy f sec pt rule db) = Ok tt /\
  removePolicy f sec pt rule (snd (removePolicy f sec pt rule db))
  = (Ok tt, snd (removePolicy f sec pt rule db)).
Proof.
  intros Hd.
  rewrite !removePolicy_rows by exact Hd.
  cbn [fst snd casbin_rules rows next_id pending].
  rewrite filter_twice. split; reflexivity.
Qed.

Lemma removePolicy_twice_witness :
  fst (removePolicy no_faults "" "p" ["alice"; "data1"; "read"]
         {| casbin_rules := {| rows := [alice_row 1]; next_id := 2 |}; pending := None |})
  = Ok tt /\
  removePolicy no_faults "" "p" ["alice"; "data1"; "read"]
    (snd (removePolicy no_faults "" "p" ["alice"; "data1"; "read"]
            {| casbin_rules := {| rows := [alice_row 1]; next_id := 2 |};
               pending := None |}))
  = (Ok tt,
     snd (removePolicy no_faults "" "p" ["alice"; "data1"; "read"]
            {| casbin_rules := {| rows := [alice_row 1]; next_id := 2 |};
               pending := None |})).
Proof.
  apply (removePolicy_twice no_faults "" "p" ["alice"; "data1"; "read"]
           {| casbin_rules := {| rows := [alice_row 1]; next_id := 2 |};
              pending := None |}).
  reflexivity.
Defined.

(** The commit is not awaited: when everything before it went through and the
    commit itself rejects, [savePolicy] still returns [true], and the store
    holds what it held before the call. *)
Theorem savePolicy_commit_unawaited (f : Faults) (m : Model) (db : Sequelize)
    (p g : AstMap) :
  pending db = None ->
  transaction_fails f = false ->
  destroy_fails f = false ->
  bulkCreate_fails f = None ->
  commit_fails f = true ->
  get "p" (model m) = Some p ->
  get "g" (model m) = Some g ->
  savePolicy f m db = (Ok true, db).
Proof.
  intros Hidle Ht Hd Hb Hc Hp Hg.
  rewrite savePolicy_paths, Ht, Hd, Hp, Hg, Hb, Hc.
  rewrite settled_idle by exact Hidle. reflexivity.
Qed.

Lemma savePolicy_commit_unawaited_witness :
  savePolicy {| transaction_fails := false; destroy_fails := false;
                bulkCreate_fails := None; commit_fails := true;
                save_fails := false; findAll_fails := false |}
             (model_of [["bob"; "data2"; "write"]])
             {| casbin_rules := {| rows := [alice_row 1]; next_id := 2 |};
                pending := None |}
  = (Ok true,
     {| casbin_rules := {| rows := [alice_row 1]; next_id := 2 |}; pending := None |}).
Proof.
  apply (savePolicy_commit_unawaited
           {| transaction_fails := false; destroy_fails := false;
              bulkCreate_fails := None; commit_fails := true;
              save_fails := false; findAll_fails := false |}
           (model_of [["bob"; "data2"; "write"]])
           {| casbin_rules := {| rows := [alice_row 1]; next_id := 2 |};
              pending := None |}
           [("p", {| policy := [["bob"; "data2"; "write"]] |})] []);
    reflexivity.
Defined.

(** The scenario of the adapter's test: from an empty store, [savePolicy] of
    two [p] rules stores exactly these two; [addPolicy] of [role, res, action]
    adds it to them and [removePolicy] takes it away again. *)
Example TestAdapter_scenario :
  let m := model_of [["alice"; "data1"; "read"]; ["bob"; "data2"; "write"]] in
  let saved := snd (savePolicy no_faults m empty_db) in
  let added := snd (addPolicy no_faults "" "p" ["role"; "res"; "action"] saved) in
  let removed := snd (removePolicy no_faults "" "p" ["role"; "res"; "action"] added) in
  fst (savePolicy no_faults m empty_db) = Ok true /\
  stored_rules saved
  = [("p", ["alice"; "data1"; "read"]); ("p", ["bob"; "data2"; "write"])] /\
  stored_rules added
  = [("p", ["alice"; "data1"; "read"]); ("p", ["bob"; "data2"; "write"]);
     ("p", ["role"; "res"; "action"])] /\
  stored_rules removed
  = [("p", ["alice"; "data1"; "read"]); ("p", ["bob"; "data2"; "write"])].
Proof.
  repeat split.
Qed.

(** * What [removePolicy] takes and what it leaves *)

Lemma decode_slots (a b : CasbinRule) :
  ptype a = ptype b -> slots a = slots b -> decode a = decode b.
Proof.
  unfold decode, loadPolicyLine_fields. intros Hp Hs. rewrite Hp, Hs. reflexivity.
Qed.

(** A row that satisfies the condition of [removePolicy] reads back as the
    rule that was asked for. *)
Lemma satisfies_decode (pt : string) (rule : list string) (row : CasbinRule) :
  satisfies (removePolicy_where pt rule) row = true ->
  decode row = kept (pt, rule).
Proof.
  intros H. apply satisfies_removePolicy_where in H as [Hp Hs].
  rewrite <- decode_buildRule. apply decode_slots; assumption.
Qed.

Lemma plain_rule_kept (pt : string) (rule : list string) :
  plain_rule rule -> kept (pt, rule) = (pt, rule).
Proof.
  intros [Hlen Hne]. apply kept_exact; assumption.
Qed.

(** Every row [removePolicy] removes carries the rule-set name that was given
    and reads back, through [loadPolicy], as the rule that was given (its first
    six parameters, the empty ones apart): no row of another rule-set name and
    no row that spells another rule is touched. *)
Theorem removePolicy_removes_only_the_rule
    (f : Faults) (sec pt : string) (rule : list string) (db : Sequelize)
    (row : CasbinRule) :
  destroy_fails f = false ->
  In row (rows (casbin_rules db)) ->
  ~ In row (rows (casbin_rules (snd (removePolicy f sec pt rule db)))) ->
  ptype row = pt /\
  decode row = kept (pt, rule) /\
  loadPolicyLine_result row = rule_text pt (snd (kept (pt, rule))).
Proof.
  intros Hf Hin Hout.
  rewrite removePolicy_rows in Hout by exact Hf. cbn [snd casbin_rules rows] in Hout.
  destruct (satisfies (removePolicy_where pt rule) row) eqn:S.
  - pose proof (satisfies_decode pt rule row S) as Hd.
    apply satisfies_removePolicy_where in S as [Hp _].
    split; [exact Hp|]. split; [exact Hd|].
    rewrite loadPolicyLine_result_decode, Hd. reflexivity.
  - exfalso. apply Hout. apply filter_In. split; [exact Hin|].
    rewrite S. reflexivity.
Qed.

Lemma removePolicy_removes_only_the_rule_witness :
  ptype (alice_row 1) = "p" /\
  decode (alice_row 1) = kept ("p", ["alice"; "data1"; "read"]) /\
  loadPolicyLine_result (alice_row 1)
  = rule_text "p" (snd (kept ("p", ["alice"; "data1"; "read"]))).
Proof.
  apply (removePolicy_removes_only_the_rule no_faults "" "p" ["alice"; "data1"; "read"]
           {| casbin_rules := {| rows := [alice_row 1]; next_id := 2 |};
              pending := None |} (alice_row 1)).
  - reflexivity.
  - left. reflexivity.
  - intros [].
Defined.

(** [removePolicy] of one rule leaves the stored row of every other rule: for
    rules of at most six non-empty parameters, a row that was stored for
    [(pt', rule')] survives the removal of a different [(pt, rule)]. *)
Theorem removePolicy_spares_other_rules
    (f : Faults) (sec pt pt' : string) (rule rule' : list string) (k : nat)
    (db : Sequelize) :
  destroy_fails f = false ->
  plain_rule rule ->
  plain_rule rule' ->
  (pt', rule') <> (pt, rule) ->
  In (with_id k (buildRule pt' rule')) (rows (casbin_rules db)) ->
  In (with_id k (buildRule pt' rule'))
     (rows (casbin_rules (snd (removePolicy f sec pt rule db)))).
Proof.
  intros Hf Hr Hr' Hne Hin.
  rewrite removePolicy_rows by exact Hf. cbn [snd casbin_rules rows].
  apply filter_In. split; [exact Hin|].
  destruct (satisfies (removePolicy_where pt rule) (with_id k (buildRule pt' rule'))) eqn:S;
    [|reflexivity].
  exfalso. apply Hne.
  apply satisfies_decode in S.
  rewrite (decode_slots (with_id k (buildRule pt' rule')) (buildRule pt' rule')
             eq_refl eq_refl) in S.
  rewrite decode_buildRule, !plain_rule_kept in S by assumption.
  exact S.
Qed.

Lemma removePolicy_spares_other_rules_witness :
  In (with_id 2 (buildRule "p" ["alice"; "data1"]))
     (rows (casbin_rules
              (snd (removePolicy no_faults "" "p" ["alice"; "data1"; "read"]
                      {| casbin_rules :=
                           {| rows := [alice_row 1;
                                       with_id 2 (buildRule "p" ["alice"; "data1"])];
                              next_id := 3 |};
                         pending := None |})))).
Proof.
  apply (removePolicy_spares_other_rules no_faults "" "p" "p"
           ["alice"; "data1"; "read"] ["alice"; "data1"] 2
           {| casbin_rules :=
                {| rows := [alice_row 1; with_id 2 (buildRule "p" ["alice"; "data1"])];
                   next_id := 3 |};
              pending := None |}).
  - reflexivity.
  - split; [simpl; lia | reflexivity].
  - split; [simpl; lia | reflexivity].
  - discriminate.
  - right. left. reflexivity.
Defined.

Lemma filter_swap (A : Type) (p q : A -> bool) (l : list A) :
  filter p (filter q l) = filter q (filter p l).
Proof.
  induction l as [|x l IH]; simpl; [reflexivity|].
  destruct (q x) eqn:Q, (p x) eqn:P; simpl; rewrite ?Q, ?P, IH; reflexivity.
Qed.

(** Two removals can be made in either order: the results and the store they
    leave are the same. *)
Theorem removePolicy_commutes
    (f : Faults) (sec1 sec2 pt1 pt2 : string) (rule1 rule2 : list string)
    (db : Sequelize) :
  destroy_fails f = false ->
  removePolicy f sec2 pt2 rule2 (snd (removePolicy f sec1 pt1 rule1 db))
  = removePolicy f sec1 pt1 rule1 (snd (removePolicy f sec2 pt2 rule2 db)).
Proof.
  intros Hf. rewrite !removePolicy_rows by exact Hf.
  cbn [snd casbin_rules rows next_id pending].
  rewrite filter_swap. reflexivity.
Qed.

Lemma removePolicy_commutes_witness :
  removePolicy no_faults "" "p" ["bob"; "data2"; "write"]
    (snd (removePolicy no_faults "" "p" ["alice"; "data1"; "read"]
            (snd (addPolicy no_faults "" "p" ["bob"; "data2"; "write"]
                    {| casbin_rules := {| rows := [alice_row 1]; next_id := 2 |};
                       pending := None |}))))
  = removePolicy no_faults "" "p" ["alice"; "data1"; "read"]
      (snd (removePolicy no_faults "" "p" ["bob"; "data2"; "write"]
              (snd (addPolicy no_faults "" "p" ["bob"; "data2"; "write"]
                      {| casbin_rules := {| rows := [alice_row 1]; next_id := 2 |};
                         pending := None |})))).
Proof.
  apply (removePolicy_commutes no_faults "" "" "p" "p"
           ["alice"; "data1"; "read"] ["bob"; "data2"; "write"]).
  reflexivity.
Defined.

(** * [addPolicy] and the text line *)

(** [addPolicy] does not look for the rule in the store: when the insert goes
    through, every stored row stays where it is and one row is added at the
    end, holding the encoding of the rule, so the lines [loadPolicy] reads are
    the former lines and then the line of the rule, once more if it was stored
    already.  When the insert rejects, the call rejects and the store is as it
    was. *)
Theorem addPolicy_appends
    (f : Faults) (sec pt : string) (rule : list string) (db : Sequelize) :
  (save_fails f = false ->
   addPolicy f sec pt rule db = (Ok tt, grown db [buildRule pt rule]) /\
   encodes pt rule (with_id (next_id (casbin_rules db)) (buildRule pt rule)) /\
   map loadPolicyLine_result (rows (casbin_rules (snd (addPolicy f sec pt rule db))))
   = map loadPolicyLine_result (rows (casbin_rules db))
     ++ [rule_text pt (snd (kept (pt, rule)))]) /\
  (save_fails f = true ->
   addPolicy f sec pt rule db = (Throw (SequelizeError "save"), db)).
Proof.
  unfold addPolicy, save. split; intros Hf; rewrite Hf; [|reflexivity].
  assert (E : insert (get_plain (buildRule pt rule)) (casbin_rules db)
              = casbin_rules (grown db [buildRule pt rule])).
  { unfold insert, grown. rewrite row_of_plain_get_plain. cbn [casbin_rules stored_as length].
    f_equal. lia. }
  split; [|split].
  - rewrite E. reflexivity.
  - apply encodes_built.
  - cbn [snd casbin_rules]. rewrite E. cbn [grown casbin_rules rows stored_as].
    rewrite map_app. cbn [map].
    rewrite loadPolicyLine_result_decode.
    rewrite (decode_slots (with_id (next_id (casbin_rules db)) (buildRule pt rule))
               (buildRule pt rule) eq_refl eq_refl).
    rewrite decode_buildRule. reflexivity.
Qed.

Lemma append_assoc (a b c : string) : ((a ++ b) ++ c = a ++ (b ++ c))%string.
Proof.
  induction a as [|ch a IH]; simpl; [reflexivity|]. rewrite IH. reflexivity.
Qed.

Lemma append_nonempty (a b : string) : a <> "" -> nonempty (a ++ b) = true.
Proof.
  intros H. destruct a as [|ch a]; [contradiction|]. reflexivity.
Qed.

(** The text line of the record of a rule that goes through the codec
    unchanged is the line of the rule. *)
Lemma result_plain_rule (pt : string) (rule : list string) :
  plain_rule rule -> loadPolicyLine_result (buildRule pt rule) = rule_text pt rule.
Proof.
  intros H. rewrite loadPolicyLine_result_decode, decode_buildRule.
  rewrite (plain_rule_kept pt rule H). reflexivity.
Qed.

(** A parameter that contains the separator is not told from two parameters:
    the line [loadPolicy] hands on for the rule with the one parameter
    [a, b] is the line for the rule with the two parameters [a] and [b], so
    whatever parses the lines reads the same rule for both. *)
Theorem separator_splits_parameter (pt a b : string) (rest : list string) :
  a <> "" ->
  b <> "" ->
  forallb nonempty rest = true ->
  length rest <= 4 ->
  loadPolicyLine_result (buildRule pt ((a ++ ", " ++ b)%string :: rest))
  = loadPolicyLine_result (buildRule pt (a :: b :: rest)).
Proof.
  intros Ha Hb Hrest Hlen.
  rewrite !result_plain_rule.
  - unfold rule_text. f_equal. f_equal.
    destruct rest as [|c rest]; [reflexivity|].
    change (String.concat ", " ((a ++ ", " ++ b)%string :: c :: rest))
      with ((a ++ ", " ++ b) ++ ", " ++ String.concat ", " (c :: rest))%string.
    change (String.concat ", " (a :: b :: c :: rest))
      with (a ++ ", " ++ (b ++ ", " ++ String.concat ", " (c :: rest)))%string.
    rewrite !append_assoc. reflexivity.
  - split; [simpl; lia|]. simpl.
    apply nonempty_true in Ha. apply nonempty_true in Hb.
    rewrite Ha, Hb, Hrest. reflexivity.
  - split; [simpl; lia|]. cbn [forallb].
    rewrite (append_nonempty a (", " ++ b) Ha), Hrest. reflexivity.
Qed.

Lemma separator_splits_parameter_witness :
  loadPolicyLine_result (buildRule "p" [("alice" ++ ", " ++ "data1")%string; "read"])
  = loadPolicyLine_result (buildRule "p" ["alice"; "data1"; "read"]).
Proof.
  apply (separator_splits_parameter "p" "alice" "data1" ["read"]).
  - discriminate.
  - discriminate.
  - reflexivity.
  - simpl. lia.
Defined.

(** * What [savePolicy] and [loadPolicy] read *)

(** [savePolicy] reads the sections [p] and [g] of the model and nothing else:
    models that agree on these two are saved alike, result and store, under
    every fault. *)
Theorem savePolicy_reads_p_and_g (f : Faults) (m1 m2 : Model) (db : Sequelize) :
  get "p" (model m1) = get "p" (model m2) ->
  get "g" (model m1) = get "g" (model m2) ->
  savePolicy f m1 db = savePolicy f m2 db.
Proof.
  intros Hp Hg. rewrite !savePolicy_paths, Hp, Hg. reflexivity.
Qed.

Lemma savePolicy_reads_p_and_g_witness :
  savePolicy no_faults
    {| model := [("r", []); ("p", [("p", {| policy := [["alice"; "data1"; "read"]] |})]);
                 ("g", [])] |}
    empty_db
  = savePolicy no_faults
      {| model := [("g", []); ("p", [("p", {| policy := [["alice"; "data1"; "read"]] |})]);
                   ("m", [("m", {| policy := [["x"]] |})])] |}
      empty_db.
Proof.
  apply savePolicy_reads_p_and_g; reflexivity.
Defined.

(** [loadPolicy] only reads.  The store after it is the store before it,
    whether [findAll] rejects or not; when [findAll] rejects, so does the call
    and no model comes back; an empty table gives the model back as it was; and
    rows later in the table are loaded into what the rows before them gave. *)
Theorem loadPolicy_only_reads
    (helper : string -> Model -> Model) (f : Faults) (m : Model) (db : Sequelize) :
  snd (loadPolicy helper f m db) = db /\
  (findAll_fails f = true ->
   fst (loadPolicy helper f m db) = Throw (SequelizeError "findAll")) /\
  (findAll_fails f = false -> rows (casbin_rules db) = [] ->
   fst (loadPolicy helper f m db) = Ok m) /\
  (findAll_fails f = false ->
   forall (first later : list CasbinRule) (n : nat) (pend : option Table) (m1 : Model),
     db = {| casbin_rules := {| rows := first ++ later; next_id := n |}; pending := pend |} ->
     fst (loadPolicy helper f m
            {| casbin_rules := {| rows := first; next_id := n |}; pending := pend |})
     = Ok m1 ->
     fst (loadPolicy helper f m db)
     = fst (loadPolicy helper f m1
              {| casbin_rules := {| rows := later; next_id := n |}; pending := pend |})).
Proof.
  unfold loadPolicy, bind, findAll, ret.
  destruct (findAll_fails f).
  - split; [reflexivity|]. split; [reflexivity|].
    split; intros H; discriminate H.
  - split; [reflexivity|]. split; [intros H; discriminate H|].
    split.
    + intros _ Hempty. rewrite Hempty. reflexivity.
    + intros _ first later n pend m1 -> H1. cbn [fst casbin_rules rows] in *.
      injection H1 as <-. rewrite fold_left_app. reflexivity.
Qed.

(** * The revision that saves line by line *)

Lemma stored_as_app (a b : list CasbinRule) (k : nat) :
  stored_as k (a ++ b) = stored_as k a ++ stored_as (k + length a) b.
Proof.
  revert k. induction a as [|x a IH]; intros k; simpl.
  - rewrite Nat.add_0_r. reflexivity.
  - rewrite IH. do 3 f_equal. lia.
Qed.

Lemma grown_nil (db : Sequelize) : grown db [] = db.
Proof.
  destruct db as [[r n] pend]. unfold grown. simpl.
  rewrite app_nil_r, Nat.add_0_r. reflexivity.
Qed.

Lemma grown_app (db : Sequelize) (a b : list CasbinRule) :
  grown (grown db a) b = grown db (a ++ b).
Proof.
  unfold grown. cbn [casbin_rules rows next_id pending].
  rewrite stored_as_app, length_app, <- app_assoc, Nat.add_assoc. reflexivity.
Qed.

Lemma save_accepted (rejects : CasbinRule -> bool) (line : CasbinRule) (db : Sequelize) :
  rejects line = false ->
  LineByLine.save rejects line db = (Ok tt, grown db [line]).
Proof.
  intros H. unfold LineByLine.save. rewrite H.
  unfold insert, grown. rewrite row_of_plain_get_plain. cbn [stored_as length].
  do 3 f_equal. lia.
Qed.

(** Saves that are all accepted add their rows in order. *)
Lemma for_each_save_accepted (rejects : CasbinRule -> bool) (lines : list CasbinRule)
    (db : Sequelize) :
  forallb (fun line => negb (rejects line)) lines = true ->
  LineByLine.for_each lines (LineByLine.save rejects) db = (Ok tt, grown db lines).
Proof.
  revert db. induction lines as [|line lines IH]; intros db H.
  - simpl. rewrite grown_nil. reflexivity.
  - simpl in H. apply andb_true_iff in H as [Hl Hrest].
    apply negb_true_iff in Hl.
    cbn [LineByLine.for_each]. unfold bind.
    rewrite (save_accepted rejects line db Hl), (IH _ Hrest), grown_app.
    reflexivity.
Qed.

(** The first rejected save ends the loop: the rows before it are written. *)
Lemma for_each_save_rejected (rejects : CasbinRule -> bool)
    (good rest : list CasbinRule) (bad : CasbinRule) (db : Sequelize) :
  forallb (fun line => negb (rejects line)) good = true ->
  rejects bad = true ->
  LineByLine.for_each (good ++ bad :: rest) (LineByLine.save rejects) db
  = (Throw (SequelizeError "save"), grown db good).
Proof.
  revert db. induction good as [|line good IH]; intros db Hgood Hbad.
  - cbn [app LineByLine.for_each]. unfold bind, LineByLine.save.
    rewrite Hbad, grown_nil. reflexivity.
  - simpl in Hgood. apply andb_true_iff in Hgood as [Hl Hrest].
    apply negb_true_iff in Hl.
    cbn [app LineByLine.for_each]. unfold bind.
    rewrite (save_accepted rejects line db Hl), (IH _ Hrest Hbad), grown_app.
    reflexivity.
Qed.

Lemma for_each_app (A : Type) (a b : list A) (body : A -> Async unit) (db : Sequelize) :
  LineByLine.for_each (a ++ b) body db
  = (LineByLine.for_each a body ;;; LineByLine.for_each b body) db.
Proof.
  revert db. induction a as [|x a IH]; intros db.
  - cbn [app LineByLine.for_each]. unfold bind, ret. reflexivity.
  - cbn [app LineByLine.for_each]. unfold bind in *.
    destruct (body x db) as [[u|ex] db1]; [apply IH | reflexivity].
Qed.

Lemma for_each_map (A B : Type) (g : A -> B) (l : list A) (body : B -> Async unit)
    (db : Sequelize) :
  LineByLine.for_each (map g l) body db = LineByLine.for_each l (fun x => body (g x)) db.
Proof.
  revert db. induction l as [|x l IH]; intros db; [reflexivity|].
  cbn [map LineByLine.for_each]. unfold bind.
  destruct (body (g x) db) as [[u|ex] db1]; [apply IH | reflexivity].
Qed.

(** The nested loops of a section are one loop over its records. *)
Lemma for_each_section (body : CasbinRule -> Async unit) (astMap : AstMap) (db : Sequelize) :
  LineByLine.for_each astMap (fun entry =>
    LineByLine.for_each (policy (snd entry)) (fun rule =>
      body (LineByLine.savePolicyLine (fst entry) rule))) db
  = LineByLine.for_each (LineByLine.lines_of astMap) body db.
Proof.
  revert db. induction astMap as [|entry astMap IH]; intros db; [reflexivity|].
  unfold LineByLine.lines_of. cbn [flat_map LineByLine.for_each].
  rewrite for_each_app. unfold bind.
  rewrite for_each_map.
  destruct (LineByLine.for_each (policy (snd entry))
              (fun rule => body (LineByLine.savePolicyLine (fst entry) rule)) db)
    as [[u|ex] db1]; [apply IH | reflexivity].
Qed.

(** The table after [truncateTable]. *)
Lemma refilled_grown (db : Sequelize) (lines : list CasbinRule) :
  grown {| casbin_rules := {| rows := []; next_id := next_id (casbin_rules db) |};
           pending := pending db |} lines
  = refilled db lines.
Proof. reflexivity. Qed.

(** [savePolicy] of this revision, both sections present: one loop over the
    records of [p] and then of [g], on the emptied table. *)
Lemma LineByLine_savePolicy_loop (f : Faults) (rejects : CasbinRule -> bool) (m : Model)
    (db : Sequelize) (p g : AstMap) :
  destroy_fails f = false ->
  get "p" (model m) = Some p ->
  get "g" (model m) = Some g ->
  LineByLine.savePolicy f rejects m db
  = match LineByLine.for_each (LineByLine.lines_of p ++ LineByLine.lines_of g)
            (LineByLine.save rejects)
            {| casbin_rules := {| rows := []; next_id := next_id (casbin_rules db) |};
               pending := pending db |} with
    | (Ok _, db') => (Ok true, db')
    | (Throw ex, db') => (Throw ex, db')
    end.
Proof.
  intros Hf Hp Hg.
  unfold LineByLine.savePolicy, LineByLine.save_section, LineByLine.truncateTable.
  rewrite Hp, Hg. unfold bind at 1. rewrite Hf.
  rewrite for_each_app. unfold bind, ret.
  rewrite !for_each_section.
  destruct (LineByLine.for_each (LineByLine.lines_of p) (LineByLine.save rejects) _)
    as [[u|ex] db1]; [|reflexivity].
  rewrite for_each_section.
  destruct (LineByLine.for_each (LineByLine.lines_of g) (LineByLine.save rejects) db1)
    as [[u'|ex] db2]; reflexivity.
Qed.

(** [savePolicy] of the line-by-line revision is not all or nothing: when the
    store rejects the save of one record, the call rejects, the rows that were
    stored before the call are gone, and the table holds the records that came
    before the rejected one and none after it. *)
Theorem LineByLine_savePolicy_partial
    (f : Faults) (rejects : CasbinRule -> bool) (m : Model) (db : Sequelize)
    (p g : AstMap) (good rest : list CasbinRule) (bad : CasbinRule) :
  destroy_fails f = false ->
  get "p" (model m) = Some p ->
  get "g" (model m) = Some g ->
  LineByLine.lines_of p ++ LineByLine.lines_of g = good ++ bad :: rest ->
  forallb (fun line => negb (rejects line)) good = true ->
  rejects bad = true ->
  LineByLine.savePolicy f rejects m db
  = (Throw (SequelizeError "save"), refilled db good) /\
  rows (casbin_rules (snd (LineByLine.savePolicy f rejects m db)))
  = stored_as (next_id (casbin_rules db)) good.
Proof.
  intros Hf Hp Hg Hsplit Hgood Hbad.
  rewrite (LineByLine_savePolicy_loop f rejects m db p g Hf Hp Hg), Hsplit.
  rewrite (for_each_save_rejected rejects good rest bad _ Hgood Hbad).
  rewrite refilled_grown. split; reflexivity.
Qed.

(** The second of three records is rejected: the stored row of alice is gone
    and only the first record is in the table. *)
Lemma LineByLine_savePolicy_partial_witness :
  let rejects := fun line => (js_string (v0 line) =? "carol")%string in
  let m := model_of [["bob"; "data2"; "write"]; ["carol"; "data3"; "read"];
                     ["dave"; "data4"; "read"]] in
  let db := {| casbin_rules := {| rows := [alice_row 1]; next_id := 2 |};
               pending := None |} in
  LineByLine.savePolicy no_faults rejects m db
  = (Throw (SequelizeError "save"),
     refilled db [LineByLine.savePolicyLine "p" ["bob"; "data2"; "write"]]) /\
  rows (casbin_rules (snd (LineByLine.savePolicy no_faults rejects m db)))
  = stored_as (next_id (casbin_rules db))
      [LineByLine.savePolicyLine "p" ["bob"; "data2"; "write"]].
Proof.
  intros rejects m db.
  apply (LineByLine_savePolicy_partial no_faults rejects m db
           [("p", {| policy := [["bob"; "data2"; "write"]; ["carol"; "data3"; "read"];
                                ["dave"; "data4"; "read"]] |})]
           []
           [LineByLine.savePolicyLine "p" ["bob"; "data2"; "write"]]
           [LineByLine.savePolicyLine "p" ["dave"; "data4"; "read"]]
           (LineByLine.savePolicyLine "p" ["carol"; "data3"; "read"]));
    reflexivity.
Defined.

(** A model that lacks a section makes [savePolicy] of the line-by-line
    revision reject with a [TypeError] only after the table was emptied:
    without [p] the table is left empty, and without [g] it is left with the
    records of [p] alone.  When the truncation itself rejects, nothing was
    touched. *)
Theorem LineByLine_savePolicy_missing_section
    (f : Faults) (rejects : CasbinRule -> bool) (m : Model) (db : Sequelize) :
  (destroy_fails f = true ->
   LineByLine.savePolicy f rejects m db = (Throw (SequelizeError "destroy"), db)) /\
  (destroy_fails f = false -> get "p" (model m) = None ->
   LineByLine.savePolicy f rejects m db = (Throw TypeError, refilled db [])) /\
  (destroy_fails f = false -> get "g" (model m) = None ->
   forall p, get "p" (model m) = Some p ->
   forallb (fun line => negb (rejects line)) (LineByLine.lines_of p) = true ->
   LineByLine.savePolicy f rejects m db
   = (Throw TypeError, refilled db (LineByLine.lines_of p))).
Proof.
  unfold LineByLine.savePolicy, LineByLine.save_section, LineByLine.truncateTable.
  split; [|split].
  - intros Hf. unfold bind. rewrite Hf. reflexivity.
  - intros Hf Hp. unfold bind. rewrite Hf, Hp.
    unfold throw, refilled. cbn [stored_as length]. rewrite Nat.add_0_r. reflexivity.
  - intros Hf Hg p Hp Hok. rewrite Hp, Hg. unfold bind. rewrite Hf.
    rewrite for_each_section, (for_each_save_accepted rejects _ _ Hok).
    rewrite refilled_grown. reflexivity.
Qed.

Lemma ltb_nth_error (A : Type) (l : list A) (n : nat) :
  (if (n <? length l)%nat then nth_error l n else None) = nth_error l n.
Proof.
  destruct (n <? length l)%nat eqn:E; [reflexivity|].
  symmetry. apply nth_error_None. apply Nat.ltb_ge. exact E.
Qed.

(** [savePolicyLine] reads back like [buildRule]. *)
Lemma decode_savePolicyLine (pt : string) (rule : list string) :
  decode (LineByLine.savePolicyLine pt rule) = decode (buildRule pt rule).
Proof.
  rewrite !decode_present. unfold LineByLine.savePolicyLine, present_values, slots.
  cbn [ptype v0 v1 v2 v3 v4 v5 buildRule]. rewrite !ltb_nth_error.
  f_equal.
  destruct rule as [|a [|b [|c [|d [|e [|g rest]]]]]]; simpl;
    unfold or_null, nonempty;
    repeat (simpl;
            match goal with
            | H : (?s =? "")%string = _ |- context [(?s =? "")%string] => rewrite H
            | |- context [(?s =? "")%string] => destruct (s =? "")%string eqn:?
            end);
    reflexivity.
Qed.

Lemma stored_savePolicyLine (pt : string) (rule : list string) (k : nat) :
  with_id k (LineByLine.savePolicyLine pt rule) = with_id k (buildRule pt rule) <->
  forallb nonempty (firstn 6 rule) = true.
Proof.
  unfold with_id, LineByLine.savePolicyLine, buildRule.
  cbn [ptype v0 v1 v2 v3 v4 v5]. rewrite !ltb_nth_error.
  destruct rule as [|a [|b [|c [|d [|e [|g rest]]]]]];
    unfold or_null, truthy, nonempty; simpl;
    repeat match goal with
           | |- context [(?s =? "")%string] => destruct (s =? "")%string
           end;
    simpl; split; intros H; try reflexivity; discriminate H.
Qed.

(** The two encoders.  [savePolicyLine] copies parameter [N] into slot [N] as
    it is, the empty string too, where [buildRule] leaves the slot of an empty
    parameter absent; so [addPolicy] of the two revisions stores the same row
    exactly when none of the first six parameters is empty, and in every case
    [loadPolicy] builds the same text line from both records. *)
Theorem savePolicyLine_and_buildRule (pt : string) (rule : list string) :
  (forall n, n < 6 ->
     nth n (slots (LineByLine.savePolicyLine pt rule)) None = nth_error rule n) /\
  (forall (sec : string) (db : Sequelize),
     snd (LineByLine.addPolicy (fun _ => false) sec pt rule db)
     = snd (addPolicy no_faults sec pt rule db) <->
     forallb nonempty (firstn 6 rule) = true) /\
  decode (LineByLine.savePolicyLine pt rule) = decode (buildRule pt rule) /\
  loadPolicyLine_result (LineByLine.savePolicyLine pt rule)
  = loadPolicyLine_result (buildRule pt rule).
Proof.
  split; [|split; [|split]].
  - intros n Hn. unfold LineByLine.savePolicyLine, slots. cbn [v0 v1 v2 v3 v4 v5].
    rewrite !ltb_nth_error.
    do 6 (destruct n as [|n]; [reflexivity|]). lia.
  - intros sec db.
    rewrite <- (stored_savePolicyLine pt rule (next_id (casbin_rules db))).
    unfold LineByLine.addPolicy, LineByLine.save, addPolicy, save, insert.
    cbn [snd save_fails no_faults]. rewrite !row_of_plain_get_plain.
    split.
    + intros H. injection H as H. apply app_inv_head in H.
      apply (f_equal (fun l => hd (buildRule pt rule) l)) in H. exact H.
    + intros H. rewrite H. reflexivity.
  - apply decode_savePolicyLine.
  - rewrite !loadPolicyLine_result_decode, decode_savePolicyLine. reflexivity.
Qed.

Lemma LineByLine_lines_of_rules (astMap : AstMap) :
  LineByLine.lines_of astMap
  = map (fun r => LineByLine.savePolicyLine (fst r) (snd r)) (rules_of astMap).
Proof.
  unfold LineByLine.lines_of, rules_of.
  induction astMap as [|[pt ast] rest IH]; simpl; [reflexivity|].
  rewrite IH, map_app, map_map. reflexivity.
Qed.

Lemma savePolicyLine_plain (pt : string) (rule : list string) :
  forallb nonempty (firstn 6 rule) = true ->
  LineByLine.savePolicyLine pt rule = buildRule pt rule.
Proof.
  unfold LineByLine.savePolicyLine, buildRule. rewrite !ltb_nth_error.
  destruct rule as [|a [|b [|c [|d [|e [|g rest]]]]]];
    unfold or_null, truthy, nonempty; simpl;
    repeat match goal with
           | |- context [(?s =? "")%string] => destruct (s =? "")%string
           end;
    simpl; intros H; try reflexivity; discriminate H.
Qed.

(** When nothing fails, the two revisions of [savePolicy] agree: on an idle
    connection and a model with both sections whose rules have no empty
    parameter among their first six, saving line by line and saving in one
    transaction return [true] and leave the same store. *)
Theorem savePolicy_revisions_agree (m : Model) (db : Sequelize) (p g : AstMap) :
  pending db = None ->
  get "p" (model m) = Some p ->
  get "g" (model m) = Some g ->
  (forall r, In r (model_rules m) -> forallb nonempty (firstn 6 (snd r)) = true) ->
  LineByLine.savePolicy no_faults (fun _ => false) m db = savePolicy no_faults m db /\
  fst (savePolicy no_faults m db) = Ok true.
Proof.
  intros Hidle Hp Hg Hall.
  assert (Hlines : LineByLine.lines_of p ++ LineByLine.lines_of g
                   = lines_of p ++ lines_of g).
  { rewrite !LineByLine_lines_of_rules, !lines_of_rules, <- !map_app.
    apply map_ext_in. intros [pt rule] Hin.
    apply savePolicyLine_plain. apply (Hall (pt, rule)).
    unfold model_rules. rewrite Hp, Hg. exact Hin. }
  rewrite (LineByLine_savePolicy_loop no_faults (fun _ => false) m db p g eq_refl Hp Hg).
  rewrite for_each_save_accepted.
  - rewrite refilled_grown, Hlines, savePolicy_paths, Hp, Hg.
    cbn [transaction_fails destroy_fails bulkCreate_fails commit_fails no_faults fst].
    unfold refilled, replaced. rewrite Hidle. split; reflexivity.
  - apply forallb_forall. intros line _. reflexivity.
Qed.

Lemma savePolicy_revisions_agree_witness :
  LineByLine.savePolicy no_faults (fun _ => false)
    (model_of [["alice"; "data1"; "read"]; ["bob"; "data2"; "write"]]) empty_db
  = savePolicy no_faults
      (model_of [["alice"; "data1"; "read"]; ["bob"; "data2"; "write"]]) empty_db /\
  fst (savePolicy no_faults
         (model_of [["alice"; "data1"; "read"]; ["bob"; "data2"; "write"]]) empty_db)
  = Ok true.
Proof.
  apply (savePolicy_revisions_agree
           (model_of [["alice"; "data1"; "read"]; ["bob"; "data2"; "write"]]) empty_db
           [("p", {| policy := [["alice"; "data1"; "read"]; ["bob"; "data2"; "write"]] |})]
           []).
  - reflexivity.
  - reflexivity.
  - reflexivity.
  - intros r [<-|[<-|[]]]; reflexivity.
Defined.

(** * Who closes the connection *)

(** [newAdapter], then [close]: the adapter owns the connection exactly when it
    was given options and not an instance; closing it ends a connection the
    adapter made and leaves an instance of the caller as open as it was; in
    both cases the record class stays bound and no row of the database is
    touched. *)
Theorem newAdapter_then_close (option : Lifecycle.ConstructorOption) (w : Lifecycle.World) :
  let a := fst (Lifecycle.newAdapter option w) in
  let w' := Lifecycle.close a (snd (Lifecycle.newAdapter option w)) in
  Lifecycle.isOwnSequelizeInstance a
  = match option with Lifecycle.Options => true | Lifecycle.Instance => false end /\
  Lifecycle.connection_open w'
  = match option with
    | Lifecycle.Options => false
    | Lifecycle.Instance => Lifecycle.connection_open w
    end /\
  Lifecycle.model_defined w' = true /\
  Lifecycle.database w' = Lifecycle.database w.
Proof.
  destruct option; repeat split.
Qed.

(** * The commit that nobody awaits *)

(** C1 fails on a commit that rejects.  The delete-all and the bulk insert of
    the rule of bob went through inside the transaction; [tx.commit()] is not
    awaited, so its rejection reaches no [catch]: the call returns [true], and
    the store still holds the row of alice and not the rule of the model.  The
    call has neither replaced the stored rules nor failed. *)
Example savePolicy_rejected_commit_returns_true :
  let f := {| transaction_fails := false; destroy_fails := false;
              bulkCreate_fails := None; commit_fails := true;
              save_fails := false; findAll_fails := false |} in
  let m := model_of [["bob"; "data2"; "write"]] in
  let db := {| casbin_rules := {| rows := [alice_row 1]; next_id := 2 |};
               pending := None |} in
  fst (savePolicy f m db) = Ok true /\
  snd (savePolicy f m db) = db /\
  stored_rules (snd (savePolicy f m db)) = [("p", ["alice"; "data1"; "read"])] /\
  model_rules m = [("p", ["bob"; "data2"; "write"])] /\
  fst (savePolicy no_faults m db) = Ok true /\
  stored_rules (snd (savePolicy no_faults m db)) = [("p", ["bob"; "data2"; "write"])].
Proof.
  repeat split.
Qed.

(** * Through the parser of the lines *)


















(** * Loading what was saved *)




















